(** * Deployment submitter: main.py

    A shallow embedding of the request handler [deploy_app] of main.py and of
    its four helpers [create_secret], [create_deployment], [create_service]
    and [create_ingress], together with the request model [AppConfig].

    The Kubernetes control plane is an external collaborator: it is a
    parameter of the development (a type of cluster states and a transition
    function telling, for every create call, whether the call returns or
    raises).  So is the client library, whose constructors run inside the
    [try] block of the handler and may raise before any call is made.  The
    handler is written in a state-and-exception monad whose state holds the
    cluster and the log of the calls made so far. *)

From Stdlib Require Import ZArith List String Bool Lia.
Import ListNotations.
Local Open Scope string_scope.
Local Open Scope Z_scope.

(** ** Python values *)

Set Warnings "-register-all".

(** The values a decoded JSON body is made of.  [VFloat m e] is the float
    m * 2^e. *)
Inductive value : Type :=
| VNone
| VBool (b : bool)
| VInt (z : Z)
| VFloat (m e : Z)
| VStr (s : string)
| VList (l : list value)
| VDict (d : list (string * value)).

(** A Python [dict] with string keys, in iteration order. *)
Definition dict : Type := list (string * value).

Definition items (d : dict) : list (string * value) := d.

Fixpoint dict_get (k : string) (d : dict) : option value :=
  match d with
  | [] => None
  | (k', v) :: d' => if String.eqb k k' then Some v else dict_get k d'
  end.

(** Truth value testing, as [if x:] does it. *)
Class Truth (A : Type) : Type := truth : A -> bool.

#[export] Instance Truth_bool : Truth bool := fun b => b.

#[export] Instance Truth_str : Truth string :=
  fun s => match s with EmptyString => false | String _ _ => true end.

#[export] Instance Truth_list {A : Type} : Truth (list A) :=
  fun l => match l with [] => false | _ :: _ => true end.

(** [None] is false; any other object has the truth value of its type. *)
#[export] Instance Truth_option {A : Type} `{Truth A} : Truth (option A) :=
  fun o => match o with None => false | Some a => truth a end.

(** ** The request model *)

(** class AppConfig(BaseModel).  [secrets] defaults to [None] and
    [external_access] to [False]; the eight other fields have no default. *)
Record AppConfig : Type := {
  app_name : string;
  replicas : Z;
  image_address : string;
  image_tag : string;
  domain_address : string;
  service_port : Z;
  resources : dict;
  envs : dict;
  secrets : option dict;
  external_access : bool
}.

(** ** Kubernetes client objects

    One module per class of [kubernetes.client] that main.py instantiates,
    with the attributes main.py sets.  An attribute the constructor leaves at
    [None] in some place and sets in another is an [option]. *)

Module V1ObjectMeta.
Record t : Type := { name : option string; labels : option dict }.
End V1ObjectMeta.

Module V1Secret.
Record t : Type := { metadata : V1ObjectMeta.t; data : option dict }.
End V1Secret.

Module V1ContainerPort.
Record t : Type := { container_port : Z }.
End V1ContainerPort.

Module V1EnvVar.
Record t : Type := { name : string; value : value }.
End V1EnvVar.

Module V1ResourceRequirements.
Record t : Type := { requests : dict }.
End V1ResourceRequirements.

Module V1SecretEnvSource.
Record t : Type := { name : string }.
End V1SecretEnvSource.

Module V1EnvFromSource.
Record t : Type := { secret_ref : V1SecretEnvSource.t }.
End V1EnvFromSource.

Module V1Container.
Record t : Type := {
  name : string;
  image : string;
  ports : list V1ContainerPort.t;
  env : list V1EnvVar.t;
  resources : V1ResourceRequirements.t;
  env_from : option (list V1EnvFromSource.t)
}.
End V1Container.

Module V1PodSpec.
Record t : Type := { containers : list V1Container.t }.
End V1PodSpec.

Module V1PodTemplateSpec.
Record t : Type := { metadata : V1ObjectMeta.t; spec : V1PodSpec.t }.
End V1PodTemplateSpec.

Module V1DeploymentSpec.
Record t : Type := {
  replicas : Z;
  template : V1PodTemplateSpec.t;
  selector : dict
}.
End V1DeploymentSpec.

Module V1Deployment.
Record t : Type := {
  api_version : string;
  kind : string;
  metadata : V1ObjectMeta.t;
  spec : V1DeploymentSpec.t
}.
End V1Deployment.

Module V1ServicePort.
Record t : Type := { port : Z; target_port : Z }.
End V1ServicePort.

Module V1ServiceSpec.
Record t : Type := {
  selector : dict;
  ports : list V1ServicePort.t;
  type : string
}.
End V1ServiceSpec.

Module V1Service.
Record t : Type := {
  api_version : string;
  kind : string;
  metadata : V1ObjectMeta.t;
  spec : V1ServiceSpec.t
}.
End V1Service.

Module V1ServiceBackendPort.
Record t : Type := { number : Z }.
End V1ServiceBackendPort.

Module V1IngressServiceBackend.
Record t : Type := { name : string; port : V1ServiceBackendPort.t }.
End V1IngressServiceBackend.

Module V1IngressBackend.
Record t : Type := { service : V1IngressServiceBackend.t }.
End V1IngressBackend.

Module V1HTTPIngressPath.
Record t : Type := {
  path : string;
  path_type : string;
  backend : V1IngressBackend.t
}.
End V1HTTPIngressPath.

Module V1HTTPIngressRuleValue.
Record t : Type := { paths : list V1HTTPIngressPath.t }.
End V1HTTPIngressRuleValue.

Module V1IngressRule.
Record t : Type := { host : string; http : V1HTTPIngressRuleValue.t }.
End V1IngressRule.

Module V1IngressSpec.
Record t : Type := { rules : list V1IngressRule.t }.
End V1IngressSpec.

Module V1Ingress.
Record t : Type := {
  api_version : string;
  kind : string;
  metadata : V1ObjectMeta.t;
  spec : V1IngressSpec.t
}.
End V1Ingress.

(** ** The cluster API *)

(** The four create operations main.py invokes, each with its [namespace]
    and [body] keyword arguments. *)
Inductive ApiCall : Type :=
| create_namespaced_secret (namespace : string) (body : V1Secret.t)
| create_namespaced_deployment (namespace : string) (body : V1Deployment.t)
| create_namespaced_service (namespace : string) (body : V1Service.t)
| create_namespaced_ingress (namespace : string) (body : V1Ingress.t).

(** A raised exception, known to the handler through [str(e)] only. *)
Record Exception : Type := { str : string }.

(** What a create call does: it returns (the returned object is dropped by
    every caller) or it raises. *)
Inductive Outcome : Type :=
| Returned
| Raised (e : Exception).

(** One entry of the log: the call made and what came of it. *)
Definition Event : Type := (ApiCall * Outcome)%type.

Inductive Kind : Type := Secret | Deployment | Service | Ingress.

Definition kind_of (c : ApiCall) : Kind :=
  match c with
  | create_namespaced_secret _ _ => Secret
  | create_namespaced_deployment _ _ => Deployment
  | create_namespaced_service _ _ => Service
  | create_namespaced_ingress _ _ => Ingress
  end.

Definition Kind_eqb (a b : Kind) : bool :=
  match a, b with
  | Secret, Secret | Deployment, Deployment
  | Service, Service | Ingress, Ingress => true
  | _, _ => false
  end.

Definition namespace_of (c : ApiCall) : string :=
  match c with
  | create_namespaced_secret ns _ => ns
  | create_namespaced_deployment ns _ => ns
  | create_namespaced_service ns _ => ns
  | create_namespaced_ingress ns _ => ns
  end.

Definition returned (o : Outcome) : bool :=
  match o with Returned => true | Raised _ => false end.

Definition calls_of (log : list Event) : list ApiCall := map fst log.

(** ** Object construction

    The straight-line part of each helper: the object its constructor calls
    describe, which it hands to the API when they all return. *)

(** create_secret, the [secret] local. *)
Definition secret_body (secret_name : string) (secret_data : option dict)
  : V1Secret.t :=
  {| V1Secret.metadata :=
       {| V1ObjectMeta.name := Some secret_name;
          V1ObjectMeta.labels := None |};
     V1Secret.data := secret_data |}.

(** create_deployment, the [container] local: built without [env_from],
    which is assigned afterwards when [secret_name] is true. *)
Definition container_body (app_name image tag : string) (envs resources : dict)
  (secret_name : option string) : V1Container.t :=
  {| V1Container.name := app_name;
     V1Container.image := image ++ ":" ++ tag;
     V1Container.ports := [ {| V1ContainerPort.container_port := 80 |} ];
     V1Container.env :=
       map (fun '(key, value) =>
              {| V1EnvVar.name := key; V1EnvVar.value := value |})
           (items envs);
     V1Container.resources :=
       {| V1ResourceRequirements.requests := resources |};
     V1Container.env_from :=
       if truth secret_name then
         match secret_name with
         | Some n =>
             Some [ {| V1EnvFromSource.secret_ref :=
                         {| V1SecretEnvSource.name := n |} |} ]
         | None => None
         end
       else None |}.

(** create_deployment, the [deployment] local. *)
Definition deployment_body (app_name : string) (replicas : Z)
  (image tag : string) (envs resources : dict) (secret_name : option string)
  : V1Deployment.t :=
  let container :=
    container_body app_name image tag envs resources secret_name in
  let template :=
    {| V1PodTemplateSpec.metadata :=
         {| V1ObjectMeta.name := None;
            V1ObjectMeta.labels := Some [("app", VStr app_name)] |};
       V1PodTemplateSpec.spec :=
         {| V1PodSpec.containers := [container] |} |} in
  let spec :=
    {| V1DeploymentSpec.replicas := replicas;
       V1DeploymentSpec.template := template;
       V1DeploymentSpec.selector :=
         [("matchLabels", VDict [("app", VStr app_name)])] |} in
  {| V1Deployment.api_version := "apps/v1";
     V1Deployment.kind := "Deployment";
     V1Deployment.metadata :=
       {| V1ObjectMeta.name := Some app_name; V1ObjectMeta.labels := None |};
     V1Deployment.spec := spec |}.

(** create_service, the [service] local. *)
Definition service_body (app_name : string) (service_port : Z) : V1Service.t :=
  {| V1Service.api_version := "v1";
     V1Service.kind := "Service";
     V1Service.metadata :=
       {| V1ObjectMeta.name := Some app_name; V1ObjectMeta.labels := None |};
     V1Service.spec :=
       {| V1ServiceSpec.selector := [("app", VStr app_name)];
          V1ServiceSpec.ports :=
            [ {| V1ServicePort.port := service_port;
                 V1ServicePort.target_port := 80 |} ];
          V1ServiceSpec.type := "ClusterIP" |} |}.

(** create_ingress, the [ingress] local. *)
Definition ingress_body (app_name domain_address : string) (service_port : Z)
  : V1Ingress.t :=
  {| V1Ingress.api_version := "networking.k8s.io/v1";
     V1Ingress.kind := "Ingress";
     V1Ingress.metadata :=
       {| V1ObjectMeta.name := Some app_name; V1ObjectMeta.labels := None |};
     V1Ingress.spec :=
       {| V1IngressSpec.rules :=
            [ {| V1IngressRule.host := domain_address;
                 V1IngressRule.http :=
                   {| V1HTTPIngressRuleValue.paths :=
                        [ {| V1HTTPIngressPath.path := "/";
                             V1HTTPIngressPath.path_type := "Prefix";
                             V1HTTPIngressPath.backend :=
                               {| V1IngressBackend.service :=
                                    {| V1IngressServiceBackend.name := app_name;
                                       V1IngressServiceBackend.port :=
                                         {| V1ServiceBackendPort.number :=
                                              service_port |} |} |} |} ] |} |} ]
       |} |}.

(** ** The client library

    The classes of [kubernetes.client] are not code of main.py.  Building an
    object runs their constructors, and a constructor may raise on the
    arguments it is given: the models generated for recent releases check
    the types of their fields, the plain classes of older releases do not.
    What the library does is a parameter: for each of the four objects,
    [None] when the constructors return the object the helper describes and
    [Some e] when one of them raises [e].  The answer depends on the
    arguments only, which the object described determines. *)
Record Client : Type := {
  secret_error : V1Secret.t -> option Exception;
  deployment_error : V1Deployment.t -> option Exception;
  service_error : V1Service.t -> option Exception;
  ingress_error : V1Ingress.t -> option Exception
}.

(** The exception raised while building the body of a call, if any. *)
Definition rejects (client : Client) (c : ApiCall) : option Exception :=
  match c with
  | create_namespaced_secret _ b => secret_error client b
  | create_namespaced_deployment _ b => deployment_error client b
  | create_namespaced_service _ b => service_error client b
  | create_namespaced_ingress _ b => ingress_error client b
  end.

(** ** Effects: a cluster, a log and exceptions *)

(** The result of a computation that may raise an [E]. *)
Inductive Result (E A : Type) : Type :=
| Ok (a : A)
| Raise (e : E).

Arguments Ok {E A} a.
Arguments Raise {E A} e.

(** raise HTTPException(status_code=..., detail=...) *)
Record HTTPException : Type := { status_code : Z; detail : string }.

(** What the web framework sends back. *)
Record Response : Type := { status : Z; content : value }.

Section Cluster.

(** The cluster: its states, and what each create call does in a state. *)
Variable World : Type.
Variable api : ApiCall -> World -> World * Outcome.

(** The client library the helpers build their objects with. *)
Variable client : Client.

(** The state threaded through a request: the cluster and the calls made
    since the request started, oldest first. *)
Record Machine : Type := { cluster : World; log : list Event }.

Definition M (E A : Type) : Type := Machine -> Machine * Result E A.

Definition ret {E A : Type} (a : A) : M E A := fun m => (m, Ok a).

Definition bind {E A B : Type} (c : M E A) (k : A -> M E B) : M E B :=
  fun m =>
    match c m with
    | (m', Ok a) => k a m'
    | (m', Raise e) => (m', Raise e)
    end.

(** try: c / except Exception as e: handler(e) *)
Definition try_except {E E' A : Type} (c : M E A) (handler : E -> M E' A)
  : M E' A :=
  fun m =>
    match c m with
    | (m', Ok a) => (m', Ok a)
    | (m', Raise e) => handler e m'
    end.

Definition raise {E A : Type} (e : E) : M E A := fun m => (m, Raise e).

(** One blocking call of the cluster API: logged, then either it returns or
    its exception propagates. *)
Definition invoke (c : ApiCall) : M Exception unit :=
  fun m =>
    let '(w, o) := api c (cluster m) in
    let m' := {| cluster := w; log := log m ++ [(c, o)] |} in
    match o with
    | Returned => (m', Ok tt)
    | Raised e => (m', Raise e)
    end.

(** The constructors of one object: they return it, or one of them raises;
    the cluster is not involved. *)
Definition construct {A : Type} (error : A -> option Exception) (body : A)
  : M Exception A :=
  fun m =>
    match error body with
    | None => (m, Ok body)
    | Some e => (m, Raise e)
    end.

Notation "x <- c ;; k" := (bind c (fun x => k))
  (at level 61, c at next level, right associativity).
Notation "c ;; k" := (bind c (fun _ => k))
  (at level 61, right associativity).

(** ** The helpers of main.py *)

Definition create_secret (namespace secret_name : string)
  (secret_data : option dict) : M Exception unit :=
  secret <- construct (secret_error client)
              (secret_body secret_name secret_data) ;;
  invoke (create_namespaced_secret namespace secret).

Definition create_deployment (namespace app_name : string) (replicas : Z)
  (image tag : string) (envs resources : dict) (secret_name : option string)
  : M Exception unit :=
  deployment <- construct (deployment_error client)
                  (deployment_body app_name replicas image tag envs
                     resources secret_name) ;;
  invoke (create_namespaced_deployment namespace deployment).

Definition create_service (namespace app_name : string) (service_port : Z)
  : M Exception unit :=
  service <- construct (service_error client)
               (service_body app_name service_port) ;;
  invoke (create_namespaced_service namespace service).

Definition create_ingress (namespace app_name domain_address : string)
  (service_port : Z) : M Exception unit :=
  ingress <- construct (ingress_error client)
               (ingress_body app_name domain_address service_port) ;;
  invoke (create_namespaced_ingress namespace ingress).

(** ** The handler *)

(** The dictionary [deploy_app] returns. *)
Definition success_message (name : string) : dict :=
  [ ("status", VStr "success");
    ("message", VStr ("Application " ++ name ++ " deployed successfully")) ].

(** The body of the [try] block. *)
Definition deploy_steps (namespace : string) (config : AppConfig)
  : M Exception dict :=
  (if truth (secrets config)
   then create_secret namespace (app_name config) (secrets config)
   else ret tt) ;;
  create_deployment namespace (app_name config) (replicas config)
    (image_address config) (image_tag config) (envs config)
    (resources config)
    (if truth (secrets config) then Some (app_name config) else None) ;;
  create_service namespace (app_name config) (service_port config) ;;
  (if truth (external_access config)
   then create_ingress namespace (app_name config) (domain_address config)
          (service_port config)
   else ret tt) ;;
  ret (success_message (app_name config)).

(** def deploy_app(config: AppConfig) *)
Definition deploy_app (config : AppConfig) : M HTTPException dict :=
  let namespace := "default" in
  try_except (deploy_steps namespace config)
    (fun e => raise {| status_code := 500; detail := str e |}).

(** ** The web framework around the handler *)

(** A returned dictionary is sent as JSON with status 200; an
    [HTTPException] is sent with its status code and its detail under the
    key "detail". *)
Definition respond (r : Result HTTPException dict) : Response :=
  match r with
  | Ok d => {| status := 200; content := VDict d |}
  | Raise h =>
      {| status := status_code h;
         content := VDict [("detail", VStr (detail h))] |}
  end.

(** Deploy: the handler run on a validated descriptor from cluster state
    [w], with an empty log; the final cluster, the log and the response. *)
Definition Deploy (config : AppConfig) (w : World) : Machine * Response :=
  let '(m, r) := deploy_app config {| cluster := w; log := [] |} in
  (m, respond r).

Definition trace (config : AppConfig) (w : World) : list Event :=
  log (fst (Deploy config w)).

Definition response (config : AppConfig) (w : World) : Response :=
  snd (Deploy config w).

End Cluster.

Arguments cluster {World} m.
Arguments log {World} m.
Arguments Build_Machine {World} cluster log.

(** ** Schema validation

    What [BaseModel] does with the class body of [AppConfig]: a field
    declared without a default must be present in the body, a field declared
    with a default takes it when its key is absent, and a present value must
    have the declared type.  Two things the library does with present
    values are outside this model, and no statement below depends on them:
    the conversions between types (a digit string or a whole float for an
    [int], say), and an explicit null for [secrets], which is taken here as
    [None] and which some releases refuse. *)

Inductive ErrorType : Type := missing | wrong_type.

Definition FieldError : Type := (string * ErrorType)%type.

Definition as_str (v : value) : option string :=
  match v with VStr s => Some s | _ => None end.

Definition as_int (v : value) : option Z :=
  match v with VInt z => Some z | _ => None end.

Definition as_bool (v : value) : option bool :=
  match v with VBool b => Some b | _ => None end.

Definition as_dict (v : value) : option dict :=
  match v with VDict d => Some d | _ => None end.

(** [secrets: dict = None]: a dictionary, or [None]. *)
Definition as_optional_dict (v : value) : option (option dict) :=
  match v with
  | VNone => Some None
  | VDict d => Some (Some d)
  | _ => None
  end.

(** A field without a default. *)
Definition required {A : Type} (conv : value -> option A) (body : dict)
  (key : string) : FieldError + A :=
  match dict_get key body with
  | None => inl (key, missing)
  | Some v =>
      match conv v with
      | Some a => inr a
      | None => inl (key, wrong_type)
      end
  end.

(** A field with a default. *)
Definition optional {A : Type} (conv : value -> option A) (body : dict)
  (key : string) (default : A) : FieldError + A :=
  match dict_get key body with
  | None => inr default
  | Some v =>
      match conv v with
      | Some a => inr a
      | None => inl (key, wrong_type)
      end
  end.

Definition errors_of {A : Type} (r : FieldError + A) : list FieldError :=
  match r with inl e => [e] | inr _ => [] end.

(** The descriptor a body validates to, or every field error found. *)
Definition validate (body : value) : list FieldError + AppConfig :=
  match body with
  | VDict b =>
      let f_app_name := required as_str b "app_name" in
      let f_replicas := required as_int b "replicas" in
      let f_image_address := required as_str b "image_address" in
      let f_image_tag := required as_str b "image_tag" in
      let f_domain_address := required as_str b "domain_address" in
      let f_service_port := required as_int b "service_port" in
      let f_resources := required as_dict b "resources" in
      let f_envs := required as_dict b "envs" in
      let f_secrets := optional as_optional_dict b "secrets" None in
      let f_external_access := optional as_bool b "external_access" false in
      match f_app_name, f_replicas, f_image_address, f_image_tag,
            f_domain_address, f_service_port, f_resources, f_envs,
            f_secrets, f_external_access with
      | inr a, inr r, inr ia, inr it, inr da, inr sp, inr rs, inr e,
        inr s, inr x =>
          inr {| app_name := a; replicas := r; image_address := ia;
                 image_tag := it; domain_address := da; service_port := sp;
                 resources := rs; envs := e; secrets := s;
                 external_access := x |}
      | _, _, _, _, _, _, _, _, _, _ =>
          inl (errors_of f_app_name ++ errors_of f_replicas
               ++ errors_of f_image_address ++ errors_of f_image_tag
               ++ errors_of f_domain_address ++ errors_of f_service_port
               ++ errors_of f_resources ++ errors_of f_envs
               ++ errors_of f_secrets ++ errors_of f_external_access)%list
      end
  | _ => inl [("", wrong_type)]
  end.

(** POST /deploy/: a body that fails validation is rejected by the framework
    ([inl], the handler is not run and the cluster is not touched); a valid
    one is handed to [deploy_app]. *)
Definition post_deploy {World : Type} (client : Client)
  (api : ApiCall -> World -> World * Outcome) (body : value) (w : World)
  : Machine World * (list FieldError + Response) :=
  match validate body with
  | inl errors => ({| cluster := w; log := [] |}, inl errors)
  | inr config =>
      let '(m, r) := Deploy World api client config w in (m, inr r)
  end.

(** ** Clusters to run the handler on *)

(** A scripted cluster: its state is the list of outcomes still to be
    played, one per call; once the script is over every call returns. *)
Definition scripted (c : ApiCall) (script : list Outcome)
  : list Outcome * Outcome :=
  match script with
  | [] => ([], Returned)
  | o :: rest => (rest, o)
  end.

(** A cluster that keeps the names it has created, per kind, and refuses a
    second create of a name, as the create-only operations do. *)
Definition name_of (c : ApiCall) : option string :=
  match c with
  | create_namespaced_secret _ b =>
      V1ObjectMeta.name (V1Secret.metadata b)
  | create_namespaced_deployment _ b =>
      V1ObjectMeta.name (V1Deployment.metadata b)
  | create_namespaced_service _ b =>
      V1ObjectMeta.name (V1Service.metadata b)
  | create_namespaced_ingress _ b =>
      V1ObjectMeta.name (V1Ingress.metadata b)
  end.

Definition option_string_eqb (a b : option string) : bool :=
  match a, b with
  | Some x, Some y => String.eqb x y
  | None, None => true
  | _, _ => false
  end.

Definition registry (c : ApiCall) (created : list (Kind * option string))
  : list (Kind * option string) * Outcome :=
  if existsb (fun '(k, n) =>
                Kind_eqb k (kind_of c) && option_string_eqb n (name_of c))
       created
  then (created, Raised {| str := "(409) Reason: Conflict" |})
  else ((kind_of c, name_of c) :: created, Returned).

Arguments ret {World E A} a m.
Arguments bind {World E A B} c k m.
Arguments raise {World E A} e m.
Arguments try_except {World E E' A} c handler m.
Arguments invoke {World} api c m.
Arguments construct {World A} error body m.
Arguments deploy_steps {World} api client namespace config m.
Arguments deploy_app {World} api client config m.
Arguments Deploy {World} api client config w.
Arguments trace {World} api client config w.
Arguments response {World} api client config w.

(** ** The calls of a request, in program order *)

Definition secret_call (config : AppConfig) : ApiCall :=
  create_namespaced_secret "default"
    (secret_body (app_name config) (secrets config)).

Definition deployment_call (config : AppConfig)
  (secret_name : option string) : ApiCall :=
  create_namespaced_deployment "default"
    (deployment_body (app_name config) (replicas config)
       (image_address config) (image_tag config) (envs config)
       (resources config) secret_name).

Definition service_call (config : AppConfig) : ApiCall :=
  create_namespaced_service "default"
    (service_body (app_name config) (service_port config)).

Definition ingress_call (config : AppConfig) : ApiCall :=
  create_namespaced_ingress "default"
    (ingress_body (app_name config) (domain_address config)
       (service_port config)).

(** The calls [deploy_app] goes through when none raises. *)
Definition planned (config : AppConfig) : list ApiCall :=
  ((if truth (secrets config) then [secret_call config] else [])
   ++ [ deployment_call config
          (if truth (secrets config) then Some (app_name config) else None);
        service_call config ]
   ++ (if truth (external_access config) then [ingress_call config] else [])
  )%list.

(** The success response and the failure response of the endpoint. *)
Definition success_response (name : string) : Response :=
  {| status := 200;
     content :=
       VDict [ ("status", VStr "success");
               ("message",
                VStr ("Application " ++ name ++ " deployed successfully")) ]
  |}.

Definition failure_response (message : string) : Response :=
  {| status := 500; content := VDict [("detail", VStr message)] |}.

Definition all_returned (log : list Event) : bool :=
  forallb (fun ev => returned (snd ev)) log.

Definition is_kind (k : Kind) (c : ApiCall) : bool := Kind_eqb (kind_of c) k.

(** Every call made before an Ingress create returned. *)
Definition preceding_returned (log : list Event) : bool :=
  forallb (fun ev => is_kind Ingress (fst ev) || returned (snd ev)) log.

(** The containers of a submitted Deployment. *)
Definition containers_of (d : V1Deployment.t) : list V1Container.t :=
  V1PodSpec.containers
    (V1PodTemplateSpec.spec
       (V1DeploymentSpec.template (V1Deployment.spec d))).

(** [config] with its [secrets] field replaced. *)
Definition with_secrets (config : AppConfig) (s : option dict) : AppConfig :=
  {| app_name := app_name config;
     replicas := replicas config;
     image_address := image_address config;
     image_tag := image_tag config;
     domain_address := domain_address config;
     service_port := service_port config;
     resources := resources config;
     envs := envs config;
     secrets := s;
     external_access := external_access config |}.

Section Submit.

Variable World : Type.
Variable api : ApiCall -> World -> World * Outcome.
Variable client : Client.

(** Calls gone through in order, each body built and then submitted, until
    a constructor or a call raises: the final cluster, the log, and the
    exception that stopped the sequence. *)
Fixpoint submit (calls : list ApiCall) (w : World)
  : World * list Event * option Exception :=
  match calls with
  | [] => (w, [], None)
  | c :: rest =>
      match rejects client c with
      | Some e => (w, [], Some e)
      | None =>
          match api c w with
          | (w', Returned) =>
              let '(w'', evs, r) := submit rest w' in
              (w'', (c, Returned) :: evs, r)
          | (w', Raised e) => (w', [(c, Raised e)], Some e)
          end
      end
  end.

End Submit.

Arguments submit {World} api client calls w.

(** ** Shapes of the submitted objects *)

(** What an env-from entry referring to the secret [n] looks like. *)
Definition secret_reference (n : string) : V1EnvFromSource.t :=
  {| V1EnvFromSource.secret_ref := {| V1SecretEnvSource.name := n |} |}.

(** A Service as the claim on Services describes it. *)
Definition cluster_ip_service (config : AppConfig) (s : V1Service.t) : Prop :=
  V1Service.api_version s = "v1"
  /\ V1Service.kind s = "Service"
  /\ V1ObjectMeta.name (V1Service.metadata s) = Some (app_name config)
  /\ V1ServiceSpec.type (V1Service.spec s) = "ClusterIP"
  /\ V1ServiceSpec.selector (V1Service.spec s)
     = [("app", VStr (app_name config))]
  /\ V1ServiceSpec.ports (V1Service.spec s)
     = [ {| V1ServicePort.port := service_port config;
            V1ServicePort.target_port := 80 |} ].

(** A Deployment with a single container, exposing container port 80. *)
Definition single_container_port_80 (d : V1Deployment.t) : Prop :=
  map V1Container.ports (containers_of d)
  = [ [ {| V1ContainerPort.container_port := 80 |} ] ].

Definition service_and_port_shape (config : AppConfig) (c : ApiCall) : Prop :=
  match c with
  | create_namespaced_service _ s => cluster_ip_service config s
  | create_namespaced_deployment _ d => single_container_port_80 d
  | _ => True
  end.

(** A Deployment whose single container has no env-from reference. *)
Definition no_env_from (c : ApiCall) : Prop :=
  match c with
  | create_namespaced_deployment _ d =>
      map V1Container.env_from (containers_of d) = [None]
  | _ => True
  end.

(** The one rule of an Ingress routing [host], path "/" by prefix, to the
    service [name] on port [port]. *)
Definition route (host name : string) (port : Z) : V1IngressRule.t :=
  {| V1IngressRule.host := host;
     V1IngressRule.http :=
       {| V1HTTPIngressRuleValue.paths :=
            [ {| V1HTTPIngressPath.path := "/";
                 V1HTTPIngressPath.path_type := "Prefix";
                 V1HTTPIngressPath.backend :=
                   {| V1IngressBackend.service :=
                        {| V1IngressServiceBackend.name := name;
                           V1IngressServiceBackend.port :=
                             {| V1ServiceBackendPort.number := port |} |} |}
              |} ] |} |}.

(** What the round-trip example says of each submitted object. *)
Definition demo_shape (c : ApiCall) : Prop :=
  match c with
  | create_namespaced_secret _ _ => False
  | create_namespaced_deployment _ d =>
      V1DeploymentSpec.replicas (V1Deployment.spec d) = 2
      /\ map V1Container.image (containers_of d) = ["nginx:1.25"]
      /\ map V1Container.env (containers_of d)
         = [ [ {| V1EnvVar.name := "ENV"; V1EnvVar.value := VStr "prod" |} ] ]
  | create_namespaced_service _ s =>
      V1ServiceSpec.ports (V1Service.spec s)
      = [ {| V1ServicePort.port := 8080; V1ServicePort.target_port := 80 |} ]
  | create_namespaced_ingress _ i =>
      V1IngressSpec.rules (V1Ingress.spec i)
      = [route "demo.example.com" "demo" 8080]
  end.

(** ** Clients to run the handler with *)

(** Plain classes: every constructor returns. *)
Definition plain_client : Client :=
  {| secret_error := fun _ => None;
     deployment_error := fun _ => None;
     service_error := fun _ => None;
     ingress_error := fun _ => None |}.

Definition is_str (v : value) : bool :=
  match v with VStr _ => true | _ => false end.

Definition str_valued (d : dict) : bool := forallb (fun kv => is_str (snd kv)) d.

(** Models that check the types of their fields: the data of a V1Secret,
    the value of a V1EnvVar and the requests of a V1ResourceRequirements
    hold strings.  In create_deployment the env list is built before the
    resource requirements.  The text of each exception stands for the
    report of the library, which names the class. *)
Definition typed_client : Client :=
  {| secret_error := fun s =>
       match V1Secret.data s with
       | Some d =>
           if str_valued d then None
           else Some {| str := "1 validation error for V1Secret" |}
       | None => None
       end;
     deployment_error := fun d =>
       if negb (forallb (fun c =>
                           forallb (fun e => is_str (V1EnvVar.value e))
                             (V1Container.env c))
                  (containers_of d))
       then Some {| str := "1 validation error for V1EnvVar" |}
       else if negb (forallb (fun c =>
                               str_valued
                                 (V1ResourceRequirements.requests
                                    (V1Container.resources c)))
                      (containers_of d))
       then Some {| str := "1 validation error for V1ResourceRequirements" |}
       else None;
     service_error := fun _ => None;
     ingress_error := fun _ => None |}.

(** ** Inputs the statements are run on *)

(** The descriptor of the round-trip example, as a decoded JSON body. *)
Definition demo_body : value :=
  VDict [ ("app_name", VStr "demo");
          ("replicas", VInt 2);
          ("image_address", VStr "nginx");
          ("image_tag", VStr "1.25");
          ("domain_address", VStr "demo.example.com");
          ("service_port", VInt 8080);
          ("resources", VDict [("cpu", VStr "100m")]);
          ("envs", VDict [("ENV", VStr "prod")]);
          ("external_access", VBool true) ].

Definition demo : AppConfig :=
  {| app_name := "demo"; replicas := 2; image_address := "nginx";
     image_tag := "1.25"; domain_address := "demo.example.com";
     service_port := 8080; resources := [("cpu", VStr "100m")];
     envs := [("ENV", VStr "prod")]; secrets := None;
     external_access := true |}.

(** A descriptor without secrets and without external access. *)
Definition plain : AppConfig :=
  {| app_name := "web"; replicas := 1; image_address := "httpd";
     image_tag := "2.4"; domain_address := "web.example.com";
     service_port := 8000; resources := []; envs := [];
     secrets := None; external_access := false |}.

(** A descriptor with one secret. *)
Definition vault : AppConfig :=
  {| app_name := "vault"; replicas := 3; image_address := "redis";
     image_tag := "7"; domain_address := "vault.example.com";
     service_port := 6379; resources := [("memory", VStr "64Mi")];
     envs := []; secrets := Some [("TOKEN", VStr "czNjcjN0")];
     external_access := false |}.

(** A body with every key but "domain_address", and no external access. *)
Definition body_without_domain : dict :=
  [ ("app_name", VStr "web");
    ("replicas", VInt 1);
    ("image_address", VStr "httpd");
    ("image_tag", VStr "2.4");
    ("service_port", VInt 8000);
    ("resources", VDict []);
    ("envs", VDict []);
    ("external_access", VBool false) ].

Definition forbidden : Exception := {| str := "(403) Reason: Forbidden" |}.



(** [vault] with a number for the value of its secret. *)
Definition vault_numbered : AppConfig :=
  {| app_name := "vault"; replicas := 3; image_address := "redis";
     image_tag := "7"; domain_address := "vault.example.com";
     service_port := 6379; resources := [("memory", VStr "64Mi")];
     envs := []; secrets := Some [("N", VInt 1)];
     external_access := false |}.

(** ** Vocabulary for the further properties *)

(** The order in which [deploy_app] goes through the kinds. *)
Definition rank (k : Kind) : Z :=
  match k with
  | Secret => 0
  | Deployment => 1
  | Service => 2
  | Ingress => 3
  end.

Fixpoint strictly_increasing (l : list Z) : bool :=
  match l with
  | [] => true
  | x :: rest =>
      match rest with
      | [] => true
      | y :: _ => (x <? y) && strictly_increasing rest
      end
  end.

(** The environment of a container read back as (name, value) pairs. *)
Definition env_pairs (c : V1Container.t) : list (string * value) :=
  map (fun e => (V1EnvVar.name e, V1EnvVar.value e)) (V1Container.env c).

(** The Secret of a request: named app_name, its data the secrets mapping
    as received. *)
Definition secret_shape (config : AppConfig) (c : ApiCall) : Prop :=
  match c with
  | create_namespaced_secret _ s =>
      V1ObjectMeta.name (V1Secret.metadata s) = Some (app_name config)
      /\ V1Secret.data s = secrets config
  | _ => True
  end.

(** The Deployment of a request, field by field. *)
Definition deployment_shape (config : AppConfig) (c : ApiCall) : Prop :=
  match c with
  | create_namespaced_deployment _ d =>
      V1Deployment.api_version d = "apps/v1"
      /\ V1Deployment.kind d = "Deployment"
      /\ V1ObjectMeta.name (V1Deployment.metadata d) = Some (app_name config)
      /\ V1DeploymentSpec.replicas (V1Deployment.spec d) = replicas config
      /\ exists c,
           containers_of d = [c]
           /\ V1Container.name c = app_name config
           /\ V1Container.image c
              = image_address config ++ ":" ++ image_tag config
           /\ V1ResourceRequirements.requests (V1Container.resources c)
              = resources config
           /\ env_pairs c = items (envs config)
  | _ => True
  end.

(** The env-from attribute of the container of a request's Deployment. *)
Definition env_from_shape (config : AppConfig) (c : ApiCall) : Prop :=
  match c with
  | create_namespaced_deployment _ d =>
      map V1Container.env_from (containers_of d)
      = [ if truth (secrets config) && truth (app_name config)
          then Some [secret_reference (app_name config)]
          else None ]
  | _ => True
  end.

(** How two objects of one request refer to each other: the Service
    selects the labels of the Deployment's pod template, which the
    Deployment's own selector matches, and forwards to the port the
    container exposes; the Ingress names the Service and its port. *)
Definition agree (c1 c2 : ApiCall) : Prop :=
  match c1, c2 with
  | create_namespaced_deployment _ d, create_namespaced_service _ s =>
      V1ObjectMeta.labels
        (V1PodTemplateSpec.metadata
           (V1DeploymentSpec.template (V1Deployment.spec d)))
      = Some (V1ServiceSpec.selector (V1Service.spec s))
      /\ V1DeploymentSpec.selector (V1Deployment.spec d)
         = [("matchLabels", VDict (V1ServiceSpec.selector (V1Service.spec s)))]
      /\ map (fun c => map V1ContainerPort.container_port (V1Container.ports c))
           (containers_of d)
         = [map V1ServicePort.target_port
              (V1ServiceSpec.ports (V1Service.spec s))]
  | create_namespaced_service _ s, create_namespaced_ingress _ i =>
      map (fun r =>
             map (fun p =>
                    let b :=
                      V1IngressBackend.service (V1HTTPIngressPath.backend p) in
                    (Some (V1IngressServiceBackend.name b),
                     V1ServiceBackendPort.number
                       (V1IngressServiceBackend.port b)))
                 (V1HTTPIngressRuleValue.paths (V1IngressRule.http r)))
          (V1IngressSpec.rules (V1Ingress.spec i))
      = [map (fun p =>
                (V1ObjectMeta.name (V1Service.metadata s),
                 V1ServicePort.port p))
             (V1ServiceSpec.ports (V1Service.spec s))]
  | _, _ => True
  end.

(** [config] with its [domain_address] field replaced. *)
Definition with_domain_address (config : AppConfig) (d : string)
  : AppConfig :=
  {| app_name := app_name config;
     replicas := replicas config;
     image_address := image_address config;
     image_tag := image_tag config;
     domain_address := d;
     service_port := service_port config;
     resources := resources config;
     envs := envs config;
     secrets := secrets config;
     external_access := external_access config |}.

(** The keys of the fields declared without a default, and all ten keys. *)
Definition required_keys : list string :=
  [ "app_name"; "replicas"; "image_address"; "image_tag"; "domain_address";
    "service_port"; "resources"; "envs" ].

Definition field_keys : list string :=
  (required_keys ++ ["secrets"; "external_access"])%list.

(** A descriptor written out as a request body: the eight required keys,
    "external_access", and "secrets" when the descriptor has a mapping. *)
Definition body_of (config : AppConfig) : dict :=
  ([ ("app_name", VStr (app_name config));
     ("replicas", VInt (replicas config));
     ("image_address", VStr (image_address config));
     ("image_tag", VStr (image_tag config));
     ("domain_address", VStr (domain_address config));
     ("service_port", VInt (service_port config));
     ("resources", VDict (resources config));
     ("envs", VDict (envs config));
     ("external_access", VBool (external_access config)) ]
   ++ match secrets config with
      | Some d => [("secrets", VDict d)]
      | None => []
      end)%list.

(** The field errors of a body, in the order the fields are declared. *)
Definition field_errors (b : dict) : list FieldError :=
  (errors_of (required as_str b "app_name")
   ++ errors_of (required as_int b "replicas")
   ++ errors_of (required as_str b "image_address")
   ++ errors_of (required as_str b "image_tag")
   ++ errors_of (required as_str b "domain_address")
   ++ errors_of (required as_int b "service_port")
   ++ errors_of (required as_dict b "resources")
   ++ errors_of (required as_dict b "envs")
   ++ errors_of (optional as_optional_dict b "secrets" None)
   ++ errors_of (optional as_bool b "external_access" false))%list.

(** A body with the eight required keys and neither optional key. *)
Definition minimal_body : dict :=
  [ ("app_name", VStr "web");
    ("replicas", VInt 1);
    ("image_address", VStr "httpd");
    ("image_tag", VStr "2.4");
    ("domain_address", VStr "web.example.com");
    ("service_port", VInt 8000);
    ("resources", VDict []);
    ("envs", VDict []) ].

(** * Properties *)

Section Properties.

Variable World : Type.
Variable api : ApiCall -> World -> World * Outcome.
Variable client : Client.

(** ** The handler against its program-order reading *)

Ltac step_api :=
  match goal with
  | |- context [secret_error client ?b] =>
      let e := fresh "e" in
      destruct (secret_error client b) as [e|]; simpl
  | |- context [deployment_error client ?b] =>
      let e := fresh "e" in
      destruct (deployment_error client b) as [e|]; simpl
  | |- context [service_error client ?b] =>
      let e := fresh "e" in
      destruct (service_error client b) as [e|]; simpl
  | |- context [ingress_error client ?b] =>
      let e := fresh "e" in
      destruct (ingress_error client b) as [e|]; simpl
  | |- context [api ?c ?w] =>
      let w' := fresh "w" in
      let e := fresh "e" in
      destruct (api c w) as [w' [|e]]; simpl
  end.

(** [deploy_app] goes through its planned calls in order, building each
    body and submitting it, and stops at the first constructor or call that
    raises; the response is the success message when nothing raised and the
    text of the exception otherwise. *)
Lemma Deploy_submit (config : AppConfig) (w : World) :
  Deploy api client config w =
  let '(w', evs, r) := submit api client (planned config) w in
  ({| cluster := w'; log := evs |},
   match r with
   | None => success_response (app_name config)
   | Some e => failure_response (str e)
   end).
Proof.
  unfold Deploy, deploy_app, deploy_steps, planned, create_secret,
    create_deployment, create_service, create_ingress, try_except, bind,
    construct, invoke, ret, raise, secret_call, deployment_call,
    service_call, ingress_call.
  destruct (truth (secrets config)), (truth (external_access config));
    simpl; repeat step_api; reflexivity.
Qed.

(** The calls made are an initial segment of the calls given. *)
Lemma submit_prefix (calls : list ApiCall) :
  forall w w' evs r,
    submit api client calls w = (w', evs, r) ->
    exists rest, calls = (calls_of evs ++ rest)%list.
Proof.
  induction calls as [|c calls IH]; intros w w' evs r H; simpl in H.
  - inversion H; subst. exists []. reflexivity.
  - destruct (rejects client c) as [e|].
    + inversion H; subst. exists (c :: calls). reflexivity.
    + destruct (api c w) as [w1 [|e]].
      * destruct (submit api client calls w1) as [[w2 evs2] r2] eqn:E.
        inversion H; subst.
        destruct (IH _ _ _ _ E) as [rest ->].
        exists rest. reflexivity.
      * inversion H; subst. exists calls. reflexivity.
Qed.

(** How a sequence ends.  Without an exception: every call was made and
    returned.  With one: either the log ends with the call that raised it,
    after calls that all returned; or a constructor raised it, every call
    made before returned, and the call whose body was being built was not
    made. *)
Lemma submit_shape (calls : list ApiCall) :
  forall w w' evs r,
    submit api client calls w = (w', evs, r) ->
    match r with
    | None => all_returned evs = true /\ calls_of evs = calls
    | Some e =>
        (exists before c,
           evs = (before ++ [(c, Raised e)])%list
           /\ all_returned before = true)
        \/ (all_returned evs = true
            /\ exists c rest,
                 calls = (calls_of evs ++ c :: rest)%list
                 /\ rejects client c = Some e)
    end.
Proof.
  induction calls as [|c calls IH]; intros w w' evs r H; simpl in H.
  - inversion H; subst. split; reflexivity.
  - destruct (rejects client c) as [e|] eqn:Ec.
    + inversion H; subst. right. split; [reflexivity|].
      exists c, calls. split; [reflexivity|exact Ec].
    + destruct (api c w) as [w1 [|e]].
      * destruct (submit api client calls w1) as [[w2 evs2] r2] eqn:E.
        inversion H; subst.
        specialize (IH _ _ _ _ E).
        destruct r as [e|].
        -- destruct IH as [(before & c' & -> & Hb) | (Hr & c' & rest & -> & Hc)].
           ++ left. exists ((c, Returned) :: before), c'.
              split; [reflexivity|]. simpl. exact Hb.
           ++ right. split; [simpl; exact Hr|].
              exists c', rest. split; [reflexivity|exact Hc].
        -- destruct IH as [Hr Hc]. split; simpl; [exact Hr | now rewrite Hc].
      * inversion H; subst. left. exists [], c. split; reflexivity.
Qed.

Lemma trace_submit (config : AppConfig) (w : World) :
  trace api client config w
  = snd (fst (submit api client (planned config) w)).
Proof.
  unfold trace. rewrite Deploy_submit.
  destruct (submit api client (planned config) w) as [[w' evs] r].
  reflexivity.
Qed.

Lemma response_submit (config : AppConfig) (w : World) :
  response api client config w =
  match snd (submit api client (planned config) w) with
  | None => success_response (app_name config)
  | Some e => failure_response (str e)
  end.
Proof.
  unfold response. rewrite Deploy_submit.
  destruct (submit api client (planned config) w) as [[w' evs] r].
  reflexivity.
Qed.

(** The calls of a request are an initial segment of its planned calls. *)
Lemma trace_prefix (config : AppConfig) (w : World) :
  exists rest,
    planned config = (calls_of (trace api client config w) ++ rest)%list.
Proof.
  rewrite trace_submit.
  destruct (submit api client (planned config) w) as [[w' evs] r] eqn:E.
  exact (submit_prefix _ _ _ _ _ E).
Qed.

Lemma all_returned_app (l1 l2 : list Event) :
  all_returned (l1 ++ l2) = all_returned l1 && all_returned l2.
Proof. apply forallb_app. Qed.

(** How a request ends: with every planned call made and returned and the
    success response; on a raising call, the last of the log, with the
    failure response; or on a raising constructor, after calls that all
    returned, with the failure response. *)
Lemma Deploy_ends (config : AppConfig) (w : World) :
  (all_returned (trace api client config w) = true
   /\ calls_of (trace api client config w) = planned config
   /\ response api client config w = success_response (app_name config))
  \/ (exists before c e,
        trace api client config w = (before ++ [(c, Raised e)])%list
        /\ all_returned before = true
        /\ response api client config w = failure_response (str e))
  \/ (exists c rest e,
        all_returned (trace api client config w) = true
        /\ planned config
           = (calls_of (trace api client config w) ++ c :: rest)%list
        /\ rejects client c = Some e
        /\ response api client config w = failure_response (str e)).
Proof.
  rewrite trace_submit, response_submit.
  destruct (submit api client (planned config) w) as [[w' evs] r] eqn:E.
  pose proof (submit_shape _ _ _ _ _ E) as H. simpl.
  destruct r as [e|].
  - right. destruct H as [(before & c & -> & Hb) | (Hr & c & rest & Hp & Hc)].
    + left. exists before, c, e. auto.
    + right. exists c, rest, e. auto.
  - left. destruct H as [Hr Hc]. auto.
Qed.

(** A property of every planned call holds of every call made. *)
Lemma trace_Forall (P : ApiCall -> Prop) (config : AppConfig) (w : World) :
  Forall P (planned config) -> Forall P (calls_of (trace api client config w)).
Proof.
  intros H. destruct (trace_prefix config w) as [rest E].
  rewrite E in H. apply Forall_app in H. exact (proj1 H).
Qed.

(** ** Calls made by a request *)

(** C1 (amended): for a descriptor whose secrets are empty or absent and
    whose external_access is false, Deploy makes no Secret create and no
    Ingress create.  When the client builds the Deployment, its create call
    returns and the client builds the Service, the calls are exactly two,
    the Deployment create followed by the Service create.  Otherwise the
    request stops earlier: with no call when the Deployment cannot be
    built, and after the Deployment create when that call raises or the
    Service cannot be built. *)
Theorem deploy_plain_calls (config : AppConfig) (w : World) :
  truth (secrets config) = false ->
  external_access config = false ->
  calls_of (trace api client config w) =
  match rejects client (deployment_call config None) with
  | Some _ => []
  | None =>
      match snd (api (deployment_call config None) w) with
      | Raised _ => [deployment_call config None]
      | Returned =>
          match rejects client (service_call config) with
          | Some _ => [deployment_call config None]
          | None => [deployment_call config None; service_call config]
          end
      end
  end.
Proof.
  intros Hs Hx. rewrite trace_submit. unfold planned.
  rewrite Hs. unfold truth at 1, Truth_bool. rewrite Hx.
  cbn [app submit].
  destruct (rejects client (deployment_call config None)) as [e|];
    [reflexivity|].
  destruct (api (deployment_call config None) w) as [w1 [|e]];
    [|reflexivity].
  cbn [snd].
  destruct (rejects client (service_call config)) as [e|]; [reflexivity|].
  destruct (api (service_call config) w1) as [w2 [|e]]; reflexivity.
Qed.

(** C2 (amended): for a descriptor whose secrets are non-empty and whose
    app_name is not the empty string, the secret Deploy builds is named
    app_name and the Deployment it builds has a single container carrying
    one env-from reference, to the secret named app_name.  When the client
    builds the Secret, its create call is the first call; when that call
    returns and the client builds the Deployment, the Deployment create is
    the next call and no later call is a Secret or a Deployment create.
    Otherwise the request stops earlier and makes no Deployment create:
    with no call when the Secret cannot be built, and after the Secret
    create when that call raises or the Deployment cannot be built. *)
Theorem secret_then_deployment (config : AppConfig) (w : World) :
  truth (secrets config) = true ->
  app_name config <> "" ->
  let d :=
    deployment_body (app_name config) (replicas config)
      (image_address config) (image_tag config) (envs config)
      (resources config) (Some (app_name config)) in
  name_of (secret_call config) = Some (app_name config)
  /\ match rejects client (secret_call config) with
     | Some _ => calls_of (trace api client config w) = []
     | None =>
         match snd (api (secret_call config) w) with
         | Raised _ =>
             calls_of (trace api client config w) = [secret_call config]
         | Returned =>
             match rejects client (create_namespaced_deployment "default" d)
             with
             | Some _ =>
                 calls_of (trace api client config w) = [secret_call config]
             | None =>
                 exists rest,
                   calls_of (trace api client config w)
                   = secret_call config
                       :: create_namespaced_deployment "default" d :: rest
                   /\ forallb
                        (fun c =>
                           negb (is_kind Secret c || is_kind Deployment c))
                        rest = true
             end
         end
     end
  /\ map V1Container.env_from (containers_of d)
     = [Some [secret_reference (app_name config)]].
Proof.
  intros Hs Hn d. split; [reflexivity|]. split.
  - rewrite trace_submit. unfold planned. rewrite Hs.
    cbn [app submit].
    destruct (rejects client (secret_call config)) as [e|]; [reflexivity|].
    destruct (api (secret_call config) w) as [w1 [|e]]; [|reflexivity].
    cbn [snd]. fold d.
    change (deployment_call config (Some (app_name config)))
      with (create_namespaced_deployment "default" d).
    destruct (rejects client (create_namespaced_deployment "default" d))
      as [e|]; [reflexivity|].
    destruct (api (create_namespaced_deployment "default" d) w1)
      as [w2 [|e]]; [|exists []; split; reflexivity].
    destruct (rejects client (service_call config)) as [e|];
      [exists []; split; reflexivity|].
    destruct (api (service_call config) w2) as [w3 [|e]];
      [|eexists; split; reflexivity].
    destruct (truth (external_access config)); cbn [submit];
      [|eexists; split; reflexivity].
    destruct (rejects client (ingress_call config)) as [e|];
      [eexists; split; reflexivity|].
    destruct (api (ingress_call config) w3) as [w4 [|e]];
      eexists; split; reflexivity.
  - unfold d, deployment_body, containers_of, container_body; simpl.
    destruct (app_name config) as [|a s]; [contradiction|reflexivity].
Qed.



(** ** Failure and success *)

(** C4: a request ends in one of three ways.  Every call made returned and
    nothing else raised: the response is HTTP 200 with the status "success"
    and the message naming app_name.  Or a call raised: that call is the
    last one of the log (no later call is attempted), every call before it
    returned, and the response is HTTP 500 with the text of the raised
    exception as its detail.  Or no call raised but a constructor of the
    client did, while building the body of a call that was then not made:
    the response is HTTP 500 with the text of that exception. *)
Theorem deploy_app_short_circuit (config : AppConfig) (w : World) :
  (all_returned (trace api client config w) = true
   /\ response api client config w
      = {| status := 200;
           content :=
             VDict [ ("status", VStr "success");
                     ("message",
                      VStr ("Application " ++ app_name config
                            ++ " deployed successfully")) ] |})
  \/ (exists before c e,
        trace api client config w = (before ++ [(c, Raised e)])%list
        /\ all_returned before = true
        /\ response api client config w
           = {| status := 500;
                content := VDict [("detail", VStr (str e))] |})
  \/ (exists c rest e,
        all_returned (trace api client config w) = true
        /\ planned config
           = (calls_of (trace api client config w) ++ c :: rest)%list
        /\ rejects client c = Some e
        /\ response api client config w
           = {| status := 500;
                content := VDict [("detail", VStr (str e))] |}).
Proof.
  destruct (Deploy_ends config w)
    as [(Hr & _ & Hs) | [(before & c & e & H) | (c & rest & e & H)]].
  - left. split; assumption.
  - right. left. exists before, c, e. exact H.
  - right. right. exists c, rest, e. exact H.
Qed.

(** ** Shapes *)

(** C6: for every descriptor the Service built is of type ClusterIP, named
    app_name, selects app = app_name and has the single port entry
    port = service_port, targetPort = 80; the Deployment built has a single
    container, exposing container port 80 whatever service_port is; and so
    are the Service and the Deployment of every request, on every cluster. *)
Theorem service_and_container_port (config : AppConfig) (w : World) :
  cluster_ip_service config
    (service_body (app_name config) (service_port config))
  /\ (forall secret_name,
        single_container_port_80
          (deployment_body (app_name config) (replicas config)
             (image_address config) (image_tag config) (envs config)
             (resources config) secret_name))
  /\ Forall (service_and_port_shape config)
       (calls_of (trace api client config w)).
Proof.
  assert (Hs : cluster_ip_service config
                 (service_body (app_name config) (service_port config)))
    by (repeat split).
  split; [exact Hs|]. split; [intros; reflexivity|].
  apply trace_Forall. unfold planned.
  destruct (truth (secrets config)), (truth (external_access config));
    simpl; repeat (apply Forall_cons || apply Forall_nil);
    try exact Hs; try exact I; reflexivity.
Qed.

(** C8: every call Deploy makes, of whichever of the four kinds, targets
    the namespace "default", for every descriptor and on every cluster. *)
Theorem namespace_always_default (config : AppConfig) (w : World) :
  Forall (fun c => namespace_of c = "default")
    (calls_of (trace api client config w)).
Proof.
  apply trace_Forall. unfold planned.
  destruct (truth (secrets config)), (truth (external_access config));
    repeat constructor.
Qed.

(** ** Secrets *)

(** C9: Deploy on a descriptor with the empty mapping for secrets and Deploy
    on the same descriptor with secrets absent end in the same cluster, with
    the same log of calls and outcomes and the same response; no call made
    is a Secret create, and the container of a submitted Deployment has no
    env-from reference. *)
Theorem empty_secrets_as_absent (config : AppConfig) (w : World) :
  Deploy api client (with_secrets config (Some [])) w
  = Deploy api client (with_secrets config None) w
  /\ forallb (fun c => negb (is_kind Secret c))
       (calls_of (trace api client (with_secrets config (Some [])) w)) = true
  /\ Forall no_env_from
       (calls_of (trace api client (with_secrets config (Some [])) w)).
Proof.
  split; [reflexivity|]. split.
  - apply forallb_forall. apply Forall_forall.
    apply trace_Forall. unfold planned; simpl.
    destruct (truth (external_access config)); repeat constructor.
  - apply trace_Forall. unfold planned; simpl.
    destruct (truth (external_access config)); repeat constructor.
Qed.

(** ** The success response *)


(** ** Schema validation *)

Ltac in_errors :=
  repeat first
    [ apply in_or_app; left; simpl; now left
    | apply in_or_app; right ];
  simpl; auto.

(** C7 (amended): domain_address is required whatever external_access is.
    A request body without the key "domain_address" fails schema validation
    with a missing-field error for it, the handler is not run and no call
    reaches the cluster. *)
Theorem domain_address_required (b : dict) (w : World) :
  dict_get "domain_address" b = None ->
  exists errors,
    post_deploy client api (VDict b) w
    = ({| cluster := w; log := [] |}, inl errors)
    /\ In ("domain_address", missing) errors.
Proof.
  intros H. unfold post_deploy, validate. cbv zeta.
  assert (Hd : required as_str b "domain_address"
               = inl ("domain_address", missing))
    by (unfold required; now rewrite H).
  rewrite Hd.
  destruct (required as_str b "app_name"),
           (required as_int b "replicas"),
           (required as_str b "image_address"),
           (required as_str b "image_tag");
    (eexists; split; [reflexivity|in_errors]).
Qed.

End Properties.

(** ** The round-trip example *)

(** C5: the descriptor of the example validates to [demo]; on a cluster
    where every call returns, Deploy submits a Deployment, a Service and an
    Ingress in that order, with plain client classes as with type-checking
    ones; and on every cluster and with every client the Deployment
    submitted has spec.replicas 2, image "nginx:1.25" and the single env var
    ENV=prod, the Service has port 8080 and targetPort 80, and the Ingress
    routes host "demo.example.com", path "/", to the service "demo" on port
    8080. *)
Theorem demo_round_trip :
  validate demo_body = inr demo
  /\ map kind_of (calls_of (trace scripted plain_client demo []))
     = [Deployment; Service; Ingress]
  /\ map kind_of (calls_of (trace scripted typed_client demo []))
     = [Deployment; Service; Ingress]
  /\ Forall demo_shape (calls_of (trace scripted typed_client demo []))
  /\ forall (World : Type) (api : ApiCall -> World -> World * Outcome)
       (client : Client) (w : World),
       Forall demo_shape (calls_of (trace api client demo w)).
Proof.
  split; [reflexivity|]. split; [reflexivity|]. split; [reflexivity|].
  assert (H : Forall demo_shape (planned demo)).
  { unfold planned; simpl.
    repeat (apply Forall_cons || apply Forall_nil); simpl; auto. }
  split; [|intros World api client w]; apply trace_Forall; exact H.
Qed.

(** ** Runs *)

(** C1, the claim as it is written: with the Deployment create refused by
    the cluster, a descriptor without secrets and without external access
    makes one call, not two. *)
Lemma deploy_plain_calls_counterexample :
  truth (secrets plain) = false
  /\ external_access plain = false
  /\ calls_of (trace scripted plain_client plain [Raised forbidden])
     = [deployment_call plain None]
  /\ ~ (exists d s,
         calls_of (trace scripted plain_client plain [Raised forbidden])
         = [ create_namespaced_deployment "default" d;
             create_namespaced_service "default" s ]).
Proof.
  repeat split. intros (d & s & H). discriminate H.
Qed.

Lemma deploy_plain_calls_witness :
  truth (secrets plain) = false
  /\ external_access plain = false
  /\ calls_of (trace scripted typed_client plain [])
     = [deployment_call plain None; service_call plain].
Proof.
  split; [reflexivity|]. split; [reflexivity|].
  exact (deploy_plain_calls _ scripted typed_client plain [] eq_refl eq_refl).
Defined.

(** C2, the claim as it is written: a descriptor with a well-formed name
    and a non-empty secrets mapping need not get a Secret create before a
    Deployment create.  With a number for the value of the secret and a
    client that checks the types of its fields, the request makes no call
    at all and is answered 500; with the Secret create refused by the
    cluster, the Secret create is the only call and no Deployment create
    follows. *)
Lemma secret_then_deployment_counterexample :
  truth (secrets vault_numbered) = true
  /\ trace scripted typed_client vault_numbered [] = []
  /\ status (response scripted typed_client vault_numbered []) = 500
  /\ truth (secrets vault) = true
  /\ calls_of (trace scripted plain_client vault [Raised forbidden])
     = [secret_call vault].
Proof. repeat split. Qed.

Lemma secret_then_deployment_witness :
  truth (secrets vault) = true
  /\ app_name vault <> ""
  /\ (exists rest,
        calls_of (trace scripted typed_client vault [])
        = secret_call vault :: deployment_call vault (Some "vault") :: rest)
  /\ map V1Container.env_from
       (containers_of
          (deployment_body "vault" 3 "redis" "7" []
             [("memory", VStr "64Mi")] (Some "vault")))
     = [Some [secret_reference "vault"]].
Proof.
  assert (Hn : app_name vault <> "") by discriminate.
  split; [reflexivity|]. split; [exact Hn|].
  pose proof (secret_then_deployment _ scripted typed_client vault []
                eq_refl Hn) as H.
  cbv zeta in H. destruct H as (_ & Hc & He).
  change (exists rest,
            calls_of (trace scripted typed_client vault [])
            = secret_call vault :: deployment_call vault (Some "vault") :: rest
            /\ forallb
                 (fun c => negb (is_kind Secret c || is_kind Deployment c))
                 rest = true) in Hc.
  destruct Hc as (rest & Hc & _).
  split; [exists rest; exact Hc | exact He].
Defined.





(** C7, the claim as it is written: a body that omits domain_address, with
    external_access false, is rejected by validation for the missing field
    and no call is made; with the key added the same body validates. *)
Lemma domain_address_required_counterexample :
  dict_get "external_access" body_without_domain = Some (VBool false)
  /\ dict_get "domain_address" body_without_domain = None
  /\ post_deploy plain_client scripted (VDict body_without_domain) []
     = ({| cluster := []; log := [] |}, inl [("domain_address", missing)])
  /\ validate
       (VDict (("domain_address", VStr "web.example.com")
               :: body_without_domain))
     = inr plain.
Proof. repeat split. Qed.

Lemma domain_address_required_witness :
  dict_get "domain_address" body_without_domain = None
  /\ exists errors,
       post_deploy plain_client scripted (VDict body_without_domain) []
       = ({| cluster := []; log := [] |}, inl errors)
       /\ In ("domain_address", missing) errors.
Proof.
  split; [reflexivity|].
  exact (domain_address_required _ scripted plain_client
           body_without_domain [] eq_refl).
Defined.

(** * Further properties of main.py *)

Section Further.

Variable World : Type.
Variable api : ApiCall -> World -> World * Outcome.
Variable client : Client.

Ltac play :=
  repeat match goal with
         | |- context [secret_error client ?b] =>
             let e := fresh "e" in
             destruct (secret_error client b) as [e|]; simpl
         | |- context [deployment_error client ?b] =>
             let e := fresh "e" in
             destruct (deployment_error client b) as [e|]; simpl
         | |- context [service_error client ?b] =>
             let e := fresh "e" in
             destruct (service_error client b) as [e|]; simpl
         | |- context [ingress_error client ?b] =>
             let e := fresh "e" in
             destruct (ingress_error client b) as [e|]; simpl
         | |- context [api ?c ?w] =>
             let w' := fresh "w" in
             let e := fresh "e" in
             destruct (api c w) as [w' [|e]]; simpl
         end.

(** Every run of [deploy_app], by the two tests, by what the client does
    of each object and by the outcome of each call made. *)
Ltac runs config :=
  rewrite ?trace_submit, ?response_submit;
  unfold planned, secret_call, deployment_call, service_call, ingress_call;
  destruct (truth (secrets config)), (truth (external_access config));
  simpl; play.

(** ** The objects submitted *)

Lemma env_pairs_items (app image tag : string) (envs resources : dict)
  (secret_name : option string) :
  env_pairs (container_body app image tag envs resources secret_name)
  = items envs.
Proof.
  unfold env_pairs, container_body, items; simpl.
  induction envs as [|[k v] rest IH]; simpl; [reflexivity|].
  now rewrite IH.
Qed.

(** X1: the Secret a request submits is named app_name and carries the
    secrets mapping exactly as it was received, keys and values unchanged
    and in the same order. *)
Theorem secret_passed_through (config : AppConfig) (w : World) :
  Forall (secret_shape config) (calls_of (trace api client config w)).
Proof.
  apply trace_Forall. unfold planned.
  destruct (truth (secrets config)), (truth (external_access config));
    simpl; repeat (apply Forall_cons || apply Forall_nil);
    simpl; auto.
Qed.

(** X2: the Deployment a request submits is an apps/v1 Deployment named
    app_name with the descriptor's replicas; its single container is named
    app_name, runs the image image_address:image_tag, requests the
    descriptor's resources, and its environment read back gives envs, every
    entry once and in the iteration order of the mapping. *)
Theorem deployment_fields (config : AppConfig) (w : World) :
  Forall (deployment_shape config) (calls_of (trace api client config w)).
Proof.
  assert (H : forall secret_name,
             deployment_shape config (deployment_call config secret_name)).
  { intros secret_name. unfold deployment_shape, deployment_call.
    repeat (split; [reflexivity|]).
    eexists. split; [reflexivity|].
    repeat (split; [reflexivity|]).
    apply env_pairs_items. }
  apply trace_Forall. unfold planned.
  destruct (truth (secrets config)), (truth (external_access config));
    simpl; repeat (apply Forall_cons || apply Forall_nil);
    try apply H; exact I.
Qed.

(** X3: the container of the submitted Deployment refers to the secret
    named app_name exactly when the secrets mapping is non-empty and
    app_name is not the empty string; in every other case it has no
    env-from attribute. *)
Theorem env_from_exactly_when (config : AppConfig) (w : World) :
  Forall (env_from_shape config) (calls_of (trace api client config w)).
Proof.
  apply trace_Forall. unfold planned.
  destruct (truth (secrets config)) eqn:Hs,
           (truth (external_access config));
    simpl; repeat (apply Forall_cons || apply Forall_nil);
    try exact I; unfold env_from_shape, deployment_call, deployment_body,
      containers_of, container_body; simpl; rewrite Hs;
    destruct (app_name config); reflexivity.
Qed.

(** X4: the objects of one request fit together.  The Service selects the
    very labels the Deployment puts on its pods and matches in its own
    selector, and its targetPort is the port the container exposes; the
    Ingress backend names the Service and uses the Service's port (not its
    targetPort). *)
Theorem objects_agree (config : AppConfig) (w : World) :
  Forall (fun c1 => Forall (agree c1) (calls_of (trace api client config w)))
    (calls_of (trace api client config w)).
Proof.
  assert (H : Forall (fun c1 => Forall (agree c1) (planned config))
                (planned config)).
  { unfold planned.
    destruct (truth (secrets config)), (truth (external_access config));
      simpl; repeat (apply Forall_cons || apply Forall_nil);
      simpl; auto. }
  apply trace_Forall.
  eapply Forall_impl; [|exact H].
  intros c Hc. apply trace_Forall. exact Hc.
Qed.

(** ** The sequence of calls *)

(** X5: a request never makes more calls than two, plus one for non-empty
    secrets, plus one for external access, four at most; a request answered
    with status 200 made exactly that many. *)
Theorem calls_bounds (config : AppConfig) (w : World) :
  let n := List.length (calls_of (trace api client config w)) in
  let planned_n :=
    (2 + (if truth (secrets config) then 1 else 0)
       + (if truth (external_access config) then 1 else 0))%nat in
  (planned_n <= 4)%nat
  /\ if status (response api client config w) =? 200
     then n = planned_n
     else (n <= planned_n)%nat.
Proof.
  runs config; lia.
Qed.

(** X6: the calls of a request come in the order Secret, Deployment,
    Service, Ingress, strictly: no kind is called twice and none is called
    after a later one, however the calls end. *)
Theorem kinds_in_order (config : AppConfig) (w : World) :
  strictly_increasing
    (map (fun c => rank (kind_of c)) (calls_of (trace api client config w))) = true.
Proof.
  runs config; reflexivity.
Qed.

(** X7: a Secret create is attempted exactly when the secrets mapping is
    non-empty and the client builds the Secret object; being the first
    step, nothing the cluster does prevents it. *)
Theorem secret_attempted_iff (config : AppConfig) (w : World) :
  existsb (is_kind Secret) (calls_of (trace api client config w))
  = truth (secrets config)
    && match rejects client (secret_call config) with
       | None => true
       | Some _ => false
       end.
Proof.
  runs config; reflexivity.
Qed.

(** X8: an Ingress create is attempted only when external_access is true,
    and then only after a Service create and with every earlier call
    returned; a request answered with status 200 made an Ingress create
    exactly when external_access is true. *)
Theorem ingress_attempted_only_if (config : AppConfig) (w : World) :
  implb (existsb (is_kind Ingress) (calls_of (trace api client config w)))
    (truth (external_access config)
     && preceding_returned (trace api client config w)
     && existsb (is_kind Service) (calls_of (trace api client config w)))
  = true
  /\ implb (status (response api client config w) =? 200)
       (Bool.eqb
          (existsb (is_kind Ingress) (calls_of (trace api client config w)))
          (truth (external_access config)))
     = true.
Proof.
  runs config; split; reflexivity.
Qed.

(** X9: the status of the response to a validated descriptor is 200 or
    500, and it is 200 only when every planned call was made and returned:
    the Deployment and the Service, the Secret before them when secrets is
    non-empty and the Ingress after them when external_access is true.  A
    request in which a call or a constructor raised is answered 500. *)
Theorem status_tells_outcome (config : AppConfig) (w : World) :
  (status (response api client config w) = 200
   /\ all_returned (trace api client config w) = true
   /\ calls_of (trace api client config w) = planned config)
  \/ (status (response api client config w) = 500
      /\ exists e,
           response api client config w = failure_response (str e)
           /\ (In (Raised e) (map snd (trace api client config w))
               \/ exists c, In c (planned config)
                            /\ rejects client c = Some e)).
Proof.
  destruct (Deploy_ends _ api client config w)
    as [(Hr & Hc & Hs) | [(before & c & e & Ht & _ & Hf)
                         | (c & rest & e & _ & Hp & Hc & Hf)]].
  - left. rewrite Hs. auto.
  - right. rewrite Hf. split; [reflexivity|].
    exists e. split; [reflexivity|]. left.
    rewrite Ht, map_app. apply in_or_app. right. now left.
  - right. rewrite Hf. split; [reflexivity|].
    exists e. split; [reflexivity|]. right.
    exists c. split; [|exact Hc].
    rewrite Hp. apply in_or_app. right. now left.
Qed.

(** ** Fields that are not read *)

(** X11: with external_access false the value of domain_address is never
    read: two descriptors that differ in it only lead to the same calls,
    the same cluster and the same response. *)
Theorem domain_address_unread (config : AppConfig) (d : string) (w : World) :
  external_access config = false ->
  Deploy api client (with_domain_address config d) w = Deploy api client config w.
Proof.
  intros H. unfold Deploy, deploy_app, deploy_steps. simpl.
  unfold truth at 3 6. unfold Truth_bool. rewrite H. reflexivity.
Qed.

(** ** Independence of the cluster *)

Lemma prefixes_comparable {A : Type} (a b ra rb : list A) :
  (a ++ ra = b ++ rb)%list ->
  (exists rest, a = (b ++ rest)%list) \/ (exists rest, b = (a ++ rest)%list).
Proof.
  revert b. induction a as [|x a IH]; intros b H.
  - right. exists b. reflexivity.
  - destruct b as [|y b].
    + left. exists (x :: a). reflexivity.
    + simpl in H. inversion H; subst.
      destruct (IH b H2) as [[rest ->] | [rest ->]].
      * left. exists rest. reflexivity.
      * right. exists rest. reflexivity.
Qed.

(** X16: what a request submits does not depend on the cluster it runs
    against: from two cluster states the same descriptor leads to the same
    calls with the same bodies in the same order, up to the point where one
    of the two runs stops.  The handler never looks at what already exists
    before it creates. *)
Theorem calls_whatever_the_cluster (config : AppConfig) (w1 w2 : World) :
  (exists rest,
     calls_of (trace api client config w1)
     = (calls_of (trace api client config w2) ++ rest)%list)
  \/ (exists rest,
        calls_of (trace api client config w2)
        = (calls_of (trace api client config w1) ++ rest)%list).
Proof.
  destruct (trace_prefix _ api client config w1) as [r1 E1].
  destruct (trace_prefix _ api client config w2) as [r2 E2].
  apply (prefixes_comparable _ _ r1 r2). now rewrite <- E1, <- E2.
Qed.

End Further.

(** ** Requests that do not validate, and requests that do *)

Section Requests.

Variable World : Type.
Variable api : ApiCall -> World -> World * Outcome.
Variable client : Client.

Ltac find_error :=
  repeat first
    [ apply in_or_app; left; simpl; now left
    | apply in_or_app; right ];
  simpl; auto.

(** A body with a field error is rejected with all its field errors. *)
Lemma validate_rejects (b : dict) :
  field_errors b <> [] -> validate (VDict b) = inl (field_errors b).
Proof.
  unfold validate, field_errors. cbv zeta.
  destruct (required as_str b "app_name"); [reflexivity|].
  destruct (required as_int b "replicas"); [reflexivity|].
  destruct (required as_str b "image_address"); [reflexivity|].
  destruct (required as_str b "image_tag"); [reflexivity|].
  destruct (required as_str b "domain_address"); [reflexivity|].
  destruct (required as_int b "service_port"); [reflexivity|].
  destruct (required as_dict b "resources"); [reflexivity|].
  destruct (required as_dict b "envs"); [reflexivity|].
  destruct (optional as_optional_dict b "secrets" None); [reflexivity|].
  destruct (optional as_bool b "external_access" false); [reflexivity|].
  intros H. now contradiction H.
Qed.

Lemma required_missing {A : Type} (conv : value -> option A) (b : dict)
  (key : string) :
  dict_get key b = None -> errors_of (required conv b key) = [(key, missing)].
Proof. intros H. unfold required. now rewrite H. Qed.

(** X12: each of the eight fields declared without a default is required.
    A body that lacks the key of any of them is rejected with a
    missing-field error for that key, the handler is not run, the cluster
    is left as it was and no call is made. *)
Theorem required_fields (key : string) (b : dict) (w : World) :
  In key required_keys ->
  dict_get key b = None ->
  exists errors,
    post_deploy client api (VDict b) w = ({| cluster := w; log := [] |}, inl errors)
    /\ In (key, missing) errors.
Proof.
  intros Hk Hg.
  assert (Hin : In (key, missing) (field_errors b)).
  { unfold field_errors.
    simpl in Hk.
    repeat (destruct Hk as [<- | Hk];
            [rewrite (required_missing _ _ _ Hg); find_error|]).
    contradiction. }
  exists (field_errors b). split; [|exact Hin].
  unfold post_deploy. rewrite validate_rejects; [reflexivity|].
  intros E. rewrite E in Hin. exact Hin.
Qed.

(** X13: the two fields declared with a default take it when their key is
    absent: a body that validates without the key "secrets" gives a
    descriptor whose secrets are None, and one that validates without the
    key "external_access" gives external_access false. *)
Theorem defaults_applied (b : dict) (config : AppConfig) :
  validate (VDict b) = inr config ->
  (dict_get "secrets" b = None -> secrets config = None)
  /\ (dict_get "external_access" b = None -> external_access config = false).
Proof.
  unfold validate. cbv zeta.
  destruct (required as_str b "app_name"); [discriminate|].
  destruct (required as_int b "replicas"); [discriminate|].
  destruct (required as_str b "image_address"); [discriminate|].
  destruct (required as_str b "image_tag"); [discriminate|].
  destruct (required as_str b "domain_address"); [discriminate|].
  destruct (required as_int b "service_port"); [discriminate|].
  destruct (required as_dict b "resources"); [discriminate|].
  destruct (required as_dict b "envs"); [discriminate|].
  destruct (optional as_optional_dict b "secrets" None) eqn:Es;
    [discriminate|].
  destruct (optional as_bool b "external_access" false) eqn:Ex;
    [discriminate|].
  intros H. inversion H; subst; simpl. unfold optional in Es, Ex.
  split; intros Hn; rewrite Hn in *; congruence.
Qed.

(** X14: every descriptor is the validation of a body: written out field
    by field (with the key "secrets" left out when it has none), it
    validates to itself.  In particular the schema rejects no value of the
    declared types, such as an empty app_name, a zero or negative replicas
    or service_port, or an empty domain_address. *)
Theorem validate_body_of (config : AppConfig) :
  validate (VDict (body_of config)) = inr config.
Proof.
  destruct config as [a r ia it da sp rs e [s|] x]; reflexivity.
Qed.

Lemma dict_get_skip (key k : string) (v : value) (b1 b2 : dict) :
  key <> k ->
  dict_get key (b1 ++ (k, v) :: b2)%list = dict_get key (b1 ++ b2)%list.
Proof.
  intros Hk. induction b1 as [|[k' v'] b1 IH]; simpl.
  - apply String.eqb_neq in Hk. now rewrite Hk.
  - now rewrite IH.
Qed.

(** X15: a key that is not the name of a field is ignored, wherever it
    stands in the body: with or without it the body validates to the same
    descriptor, or is rejected with the same errors. *)
Theorem unknown_key_ignored (k : string) (v : value) (b1 b2 : dict) :
  ~ In k field_keys ->
  validate (VDict (b1 ++ (k, v) :: b2)%list)
  = validate (VDict (b1 ++ b2)%list).
Proof.
  intros Hk. unfold validate, required, optional.
  rewrite !dict_get_skip
    by (intros E; apply Hk; rewrite <- E; simpl; tauto).
  reflexivity.
Qed.

End Requests.

(** ** Runs of the further properties *)

Lemma domain_address_unread_witness :
  external_access plain = false
  /\ Deploy scripted typed_client (with_domain_address plain "")
       [Returned; Raised forbidden]
     = Deploy scripted typed_client plain [Returned; Raised forbidden].
Proof.
  split; [reflexivity|].
  exact (domain_address_unread _ scripted typed_client plain ""
           [Returned; Raised forbidden] eq_refl).
Defined.

Lemma required_fields_witness :
  In "envs" required_keys
  /\ dict_get "envs" [("app_name", VStr "web")] = None
  /\ exists errors,
       post_deploy typed_client registry (VDict [("app_name", VStr "web")])
         [(Service, Some "web")]
       = ({| cluster := [(Service, Some "web")]; log := [] |}, inl errors)
       /\ In ("envs", missing) errors.
Proof.
  assert (Hk : In "envs" required_keys) by (simpl; tauto).
  split; [exact Hk|]. split; [reflexivity|].
  exact (required_fields _ registry typed_client "envs"
           [("app_name", VStr "web")] [(Service, Some "web")] Hk eq_refl).
Defined.
Lemma defaults_applied_witness :
  validate (VDict minimal_body) = inr plain
  /\ dict_get "secrets" minimal_body = None
  /\ dict_get "external_access" minimal_body = None
  /\ secrets plain = None
  /\ external_access plain = false.
Proof.
  split; [reflexivity|]. split; [reflexivity|]. split; [reflexivity|].
  destruct (defaults_applied minimal_body plain eq_refl) as [Hs Hx].
  split; [exact (Hs eq_refl) | exact (Hx eq_refl)].
Defined.

Lemma unknown_key_ignored_witness :
  ~ In "owner" field_keys
  /\ validate
       (VDict ([("app_name", VStr "web")]
               ++ ("owner", VStr "ops") :: tl minimal_body)%list)
     = validate (VDict ([("app_name", VStr "web")] ++ tl minimal_body)%list).
Proof.
  assert (Hk : ~ In "owner" field_keys).
  { simpl. intros H.
    repeat (destruct H as [H|H]; [discriminate H|]). exact H. }
  split; [exact Hk|].
  exact (unknown_key_ignored "owner" (VStr "ops")
           [("app_name", VStr "web")] (tl minimal_body) Hk).
Defined.
